(** * Service Management API client wrapper

    A shallow embedding of
    [google/cloud/forseti/common/gcp_api/servicemanagement.py]:
    the repository client constructor, the services sub-repository
    (name formatting and [get_config]) and the five read operations of
    [ServiceManagementClient].

    Python strings are [string]; keyword-argument dictionaries are
    [gmap string pyval]; a [try ... except] is a handler in a small
    state-and-exception monad whose state records the calls dispatched to
    the sub-repository and the records sent to the logger. The handle
    that [self.repository.services] evaluates to is passed to each
    operation as a value; what the remote side answers is a field of it. *)

From Stdlib Require Import ZArith Floats.
From stdpp Require Import gmap strings list fin_maps.

Set Warnings "-register-all".
Open Scope string_scope.
Open Scope list_scope.

(** ** Python values and strings *)

(** The Python values that reach this module: arguments of remote calls
    and the documents they return. *)
Inductive pyval : Type :=
| PyNone
| PyBool (b : bool)
| PyInt (n : Z)
| PyStr (s : string)
| PyList (l : list pyval)
| PyDict (kvs : list (string * pyval)).

(** Python's truth value testing, as used by [if config_id:]. *)
Definition truthy (v : pyval) : bool :=
  match v with
  | PyNone => false
  | PyBool b => b
  | PyInt n => negb (n =? 0)%Z
  | PyStr s => negb (String.eqb s "")
  | PyList l => match l with [] => false | _ => true end
  | PyDict kvs => match kvs with [] => false | _ => true end
  end.

(** [s.startswith(p)]. *)
Fixpoint startswith (s p : string) {struct p} : bool :=
  match p with
  | EmptyString => true
  | String c p' =>
      match s with
      | EmptyString => false
      | String d s' => Ascii.eqb d c && startswith s' p'
      end
  end.

(** ** Exceptions *)

(** What a collaborator (base repository, mixins, pagination) can raise.
    [HttpError] stands for [googleapiclient.errors.HttpError] and its
    subclasses, [HttpLib2Error] for [httplib2.HttpLib2Error] and its
    subclasses, [OtherException] for an exception of any class outside
    these two hierarchies. *)
Inductive py_exception : Type :=
| HttpError (status : Z) (content : string)
| HttpLib2Error (msg : string)
| OtherException (cls msg : string).

(** Modelled from the spec: [api_errors.ApiExecutionError] is not part of
    the source file; the spec describes its constructor as
    [makeApiError(contextLabel, cause, [tagKey, tagValue])], an error
    carrying a context label, the cause and an optional key/value tag. *)
Record api_execution_error : Type := ApiExecutionError {
  label : string;
  http_error : py_exception;
  tag : option (string * string)
}.

(** What an operation of this module can raise: a collaborator's exception
    that no handler caught, or the domain error built at the call site. *)
Inductive exn : Type :=
| Propagated (e : py_exception)
| ApiExecution (e : api_execution_error).

(** The class test of [except (errors.HttpError, HttpLib2Error) as e]. *)
Definition is_transport_failure (e : py_exception) : bool :=
  match e with
  | HttpError _ _ | HttpLib2Error _ => true
  | OtherException _ _ => false
  end.

(** ** Observable effects: dispatched calls and log records *)

Inductive call : Type :=
| CallList (kwargs : gmap string pyval) (max_results : option Z)
| CallGetIamPolicy (resource : string)
| CallExecuteQuery (verb : string) (verb_arguments : gmap string pyval).

Inductive log_record : Type :=
| LogException (e : api_execution_error)
| LogDebug (fmt : string) (args : list pyval).

Record world : Type := World {
  calls : list call;
  logged : list log_record
}.

Inductive outcome (A : Type) : Type :=
| Return (a : A)
| Raise (e : exn).
Arguments Return {A} a.
Arguments Raise {A} e.

(** State and exceptions: effects made before a [raise] are kept. *)
Definition M (A : Type) : Type := world -> world * outcome A.

Definition ret {A} (a : A) : M A := fun w => (w, Return a).

Definition bind {A B} (m : M A) (k : A -> M B) : M B :=
  fun w =>
    match m w with
    | (w', Return a) => k a w'
    | (w', Raise e) => (w', Raise e)
    end.

Definition raise {A} (e : exn) : M A := fun w => (w, Raise e).

Notation "'do' x <- m ; k" := (bind m (fun x => k))
  (at level 10, x name, m at level 100, k at level 200).
Notation "'do_' m ; k" := (bind m (fun _ => k))
  (at level 10, m at level 100, k at level 200).

(** [try: body except (errors.HttpError, HttpLib2Error) as e: handler]. *)
Definition try_except {A} (body : M A) (handler : py_exception -> M A) : M A :=
  fun w =>
    match body w with
    | (w', Raise (Propagated e)) =>
        if is_transport_failure e then handler e w'
        else (w', Raise (Propagated e))
    | r => r
    end.

Definition dispatch (c : call) : M unit :=
  fun w => (World (calls w ++ [c]) (logged w), Return tt).

Definition log (r : log_record) : M unit :=
  fun w => (World (calls w) (logged w ++ [r]), Return tt).

(** A collaborator's answer, turned into a return or a raise. *)
Definition answer {A} (r : py_exception + A) : M A :=
  match r with
  | inl e => raise (Propagated e)
  | inr a => ret a
  end.

(** ** Pagination *)

(** A page document: [{<key>: [items...]}]. *)
Abbreviation page := (gmap string (list pyval)).

(** The lazy page sequence a list call returns: each step yields a page,
    ends, or raises while fetching the next page. *)
Inductive page_seq : Type :=
| PagesEnd
| PagesYield (p : page) (rest : page_seq)
| PagesRaise (e : py_exception).

(** Modelled from the spec: [api_helpers.flatten_list_results] is not part
    of the source file. The spec's flattening contract: one ordered
    sequence of all items across pages, page order and in-page order
    kept, a page without the key contributes no item; a failure on any
    page aborts and the items of earlier pages are discarded. *)
Fixpoint flatten_list_results (paged_results : page_seq) (item_key : string)
  : py_exception + list pyval :=
  match paged_results with
  | PagesEnd => inr []
  | PagesRaise e => inl e
  | PagesYield p rest =>
      match flatten_list_results rest item_key with
      | inl e => inl e
      | inr items => inr (default [] (p !! item_key) ++ items)%list
      end
  end.

(** ** The repository client *)

Definition API_NAME : string := "servicemanagement".

(** An instance of [googleapiclient.discovery_cache.base.Cache]. *)
Record Cache : Type := { cache_id : N }.

(** The keyword arguments [BaseRepositoryClient.__init__] receives. *)
Record BaseRepositoryClient : Type := {
  api_name : string;
  versions : list string;
  quota_max_calls : option Z;
  quota_period : float;
  use_rate_limiter : bool;
  cache_discovery : bool;
  cache : option Cache
}.

Module ServiceManagementRepositoryClient.

(** [if not quota_max_calls: use_rate_limiter = False], then the call
    of the base constructor. [not] holds of [None] and of [0]. *)
Definition __init__ (quota_max_calls : option Z) (quota_period : float)
    (use_rate_limiter : bool) (cache_discovery : bool)
    (cache : option Cache) : BaseRepositoryClient :=
  let use_rate_limiter :=
    if negb (truthy (from_option PyInt PyNone quota_max_calls))
    then false else use_rate_limiter in
  {| api_name := API_NAME; versions := ["v1"];
     quota_max_calls := quota_max_calls;
     quota_period := quota_period;
     use_rate_limiter := use_rate_limiter;
     cache_discovery := cache_discovery;
     cache := cache |}.

(** The constructor called with the defaults of its signature where the
    caller passes nothing: [quota_max_calls=None], [quota_period=100.0],
    [use_rate_limiter=True], [cache_discovery=False], [cache=None]. *)
Definition new (quota_max_calls : option Z) (quota_period : option float)
    (use_rate_limiter : option bool) (cache_discovery : option bool)
    (cache : option Cache) : BaseRepositoryClient :=
  __init__ quota_max_calls (default 100%float quota_period)
    (default true use_rate_limiter) (default false cache_discovery) cache.

End ServiceManagementRepositoryClient.

(** ** The services sub-repository *)

(** Modelled from the spec: [_base_repository.GCPRepository] and the
    mixins of [repository_mixins] are not part of the source file. The
    spec gives their interface: [list(filters, maxResults)] returns a lazy
    page sequence, [getIamPolicy(resourceName)] a policy document,
    [executeQuery(verb, verbArguments)] a response; the key field given at
    construction names the resource argument of a query. What the remote
    side answers is a parameter of the record. *)
Record GCPRepository : Type := {
  component : string;
  max_results_field : string;
  _get_key_field : string;
  list_response : gmap string pyval -> option Z -> page_seq;
  get_iam_policy_response : string -> py_exception + pyval;
  execute_query_response : string -> gmap string pyval -> py_exception + pyval
}.

(** The remote side, as the [**kwargs] handed to the constructor. *)
Record remote : Type := {
  on_list : gmap string pyval -> option Z -> page_seq;
  on_get_iam_policy : string -> py_exception + pyval;
  on_execute_query : string -> gmap string pyval -> py_exception + pyval
}.

Module _ServiceManagementServicesRepository.

(** [if not project_id.startswith('project:'):
       project_id = 'project:{}'.format(project_id)
     return project_id] *)
Definition get_formatted_project_name (project_id : string) : string :=
  if negb (startswith project_id "project:")
  then "project:" +:+ project_id
  else project_id.

(** [if not service_name.startswith('services/'):
       service_name = 'services/{}'.format(service_name)
     return service_name] *)
Definition get_formatted_service_name (service_name : string) : string :=
  if negb (startswith service_name "services/")
  then "services/" +:+ service_name
  else service_name.


(** [super().__init__(component='services',
      max_results_field='pageSize', key_field='serviceName', **kwargs)] *)
Definition __init__ (kwargs : remote) : GCPRepository :=
  {| component := "services";
     max_results_field := "pageSize";
     _get_key_field := "serviceName";
     list_response := on_list kwargs;
     get_iam_policy_response := on_get_iam_policy kwargs;
     execute_query_response := on_execute_query kwargs |}.

(** [ListQueryMixin.list(max_results=..., **kwargs)]: the call is
    dispatched and a lazy page sequence comes back. *)
Definition list (self : GCPRepository) (kwargs : gmap string pyval)
    (max_results : option Z) : M page_seq :=
  do_ dispatch (CallList kwargs max_results);
  ret (list_response self kwargs max_results).

(** [GetIamPolicyQueryMixin.get_iam_policy(resource)]. *)
Definition get_iam_policy (self : GCPRepository) (resource : string)
  : M pyval :=
  do_ dispatch (CallGetIamPolicy resource);
  answer (get_iam_policy_response self resource).

(** [GCPRepository.execute_query(verb, verb_arguments)]. *)
Definition execute_query (self : GCPRepository) (verb : string)
    (verb_arguments : gmap string pyval) : M pyval :=
  do_ dispatch (CallExecuteQuery verb verb_arguments);
  answer (execute_query_response self verb verb_arguments).

(** [arguments = {self._get_key_field: resource}
     if config_id: arguments['configId'] = config_id
     if view: arguments['view'] = view
     return self.execute_query(verb=verb, verb_arguments=arguments)].
    An argument the caller omits is [PyNone], its default. *)
Definition get_config (self : GCPRepository) (resource : string)
    (config_id : pyval) (view : pyval) (verb : string) : M pyval :=
  let arguments : gmap string pyval :=
    {[ _get_key_field self := PyStr resource ]} in
  let arguments :=
    if truthy config_id then <["configId" := config_id]> arguments
    else arguments in
  let arguments :=
    if truthy view then <["view" := view]> arguments else arguments in
  execute_query self verb arguments.

End _ServiceManagementServicesRepository.

(** ** The high-level client *)

Module Services := _ServiceManagementServicesRepository.

Module ServiceManagementClient.

(** Maximum number of results to fetch per page for paged API calls. *)
Definition DEFAULT_MAX_RESULTS : Z := 100.

Section Operations.

(** The handle [self.repository.services] evaluates to. *)
Variable services : GCPRepository.

Definition get_all_apis : M (list pyval) :=
  do flattened_results <-
    try_except
      (do paged_results <-
         Services.list services ∅ (Some DEFAULT_MAX_RESULTS);
       answer (flatten_list_results paged_results "services"))
      (fun e =>
         let api_exception := ApiExecutionError "" e None in
         do_ log (LogException api_exception);
         raise (ApiExecution api_exception));
  do_ log (LogDebug "Getting all visible APIs, flattened_results = %s"
             [PyList flattened_results]);
  ret flattened_results.

Definition get_produced_apis (project_id : string) : M (list pyval) :=
  do flattened_results <-
    try_except
      (do paged_results <-
         Services.list services
           {[ "producerProjectId" := PyStr project_id ]}
           (Some DEFAULT_MAX_RESULTS);
       answer (flatten_list_results paged_results "services"))
      (fun e =>
         let api_exception :=
           ApiExecutionError "name" e (Some ("project_id", project_id)) in
         do_ log (LogException api_exception);
         raise (ApiExecution api_exception));
  do_ log (LogDebug
             ("Getting the APIs produced by a project, project_id = %s, "
              +:+ "flattened_results = %s")
             [PyStr project_id; PyList flattened_results]);
  ret flattened_results.

Definition get_enabled_apis (project_id : string) : M (list pyval) :=
  let formatted_project_id :=
    Services.get_formatted_project_name project_id in
  do flattened_results <-
    try_except
      (do paged_results <-
         Services.list services
           {[ "consumerId" := PyStr formatted_project_id ]}
           (Some DEFAULT_MAX_RESULTS);
       answer (flatten_list_results paged_results "services"))
      (fun e =>
         let api_exception :=
           ApiExecutionError "name" e (Some ("project_id", project_id)) in
         do_ log (LogException api_exception);
         raise (ApiExecution api_exception));
  do_ log (LogDebug
             ("Getting the enabled APIs for a project, project_id = %s, "
              +:+ "flattened_results = %s")
             [PyStr project_id; PyList flattened_results]);
  ret flattened_results.

Definition get_api_iam_policy (service_name : string) : M pyval :=
  let name := Services.get_formatted_service_name service_name in
  do result <-
    try_except
      (Services.get_iam_policy services name)
      (fun e =>
         let api_exception :=
           ApiExecutionError "serviceIamPolicy" e
             (Some ("serviceName", service_name)) in
         do_ log (LogException api_exception);
         raise (ApiExecution api_exception));
  do_ log (LogDebug
             ("Getting IAM Policy for a service, service_name = %s, "
              +:+ "result = %s")
             [PyStr service_name; result]);
  ret result.

Definition get_full_api_configuration (service_name : string) : M pyval :=
  do result <-
    try_except
      (Services.get_config services service_name PyNone PyNone "getConfig")
      (fun e =>
         let api_exception :=
           ApiExecutionError "serviceConfig" e
             (Some ("serviceName", service_name)) in
         do_ log (LogException api_exception);
         raise (ApiExecution api_exception));
  do_ log (LogDebug
             ("Getting Service Config for a service, service_name = %s, "
              +:+ "result = %s")
             [PyStr service_name; result]);
  ret result.

End Operations.

End ServiceManagementClient.

(** ** The five operations as one interface *)

Inductive operation_name : Type :=
| GetAllApis | GetProducedApis | GetEnabledApis
| GetApiIamPolicy | GetFullApiConfiguration.

(** An invocation: the operation and the identifier the caller passes
    ([get_all_apis] takes none). *)
Record operation : Type := Invoke {
  name_of : operation_name;
  argument : string
}.

Inductive retval : Type :=
| Items (l : list pyval)
| Document (d : pyval).

Definition fmap_M {A B} (f : A -> B) (m : M A) : M B :=
  do a <- m; ret (f a).

Definition run (services : GCPRepository) (op : operation) : M retval :=
  match name_of op with
  | GetAllApis =>
      fmap_M Items (ServiceManagementClient.get_all_apis services)
  | GetProducedApis =>
      fmap_M Items
        (ServiceManagementClient.get_produced_apis services (argument op))
  | GetEnabledApis =>
      fmap_M Items
        (ServiceManagementClient.get_enabled_apis services (argument op))
  | GetApiIamPolicy =>
      fmap_M Document
        (ServiceManagementClient.get_api_iam_policy services (argument op))
  | GetFullApiConfiguration =>
      fmap_M Document
        (ServiceManagementClient.get_full_api_configuration services
           (argument op))
  end.

(** ** Vocabulary of the statements *)

(** The first exception met when the page sequence is walked to its end. *)
Fixpoint pages_failure (ps : page_seq) : option py_exception :=
  match ps with
  | PagesEnd => None
  | PagesYield _ rest => pages_failure rest
  | PagesRaise e => Some e
  end.

(** A page sequence that yields the given pages and ends. *)
Fixpoint pages_of (ps : list page) : page_seq :=
  match ps with
  | [] => PagesEnd
  | p :: ps' => PagesYield p (pages_of ps')
  end.

(** Whether, and with what, the transport fails on a dispatched call. *)
Definition call_failure (services : GCPRepository) (c : call)
  : option py_exception :=
  match c with
  | CallList kwargs max_results =>
      pages_failure (list_response services kwargs max_results)
  | CallGetIamPolicy resource =>
      match get_iam_policy_response services resource with
      | inl e => Some e
      | inr _ => None
      end
  | CallExecuteQuery verb verb_arguments =>
      match execute_query_response services verb verb_arguments with
      | inl e => Some e
      | inr _ => None
      end
  end.

(** The identifier as the caller passed it, under the key it is reported
    with; [get_all_apis] has none. *)
Definition input_identifier (op : operation) : option (string * string) :=
  match name_of op with
  | GetAllApis => None
  | GetProducedApis | GetEnabledApis => Some ("project_id", argument op)
  | GetApiIamPolicy | GetFullApiConfiguration =>
      Some ("serviceName", argument op)
  end.

(** The context label each operation gives its error. *)
Definition label_of (n : operation_name) : string :=
  match n with
  | GetAllApis => ""
  | GetProducedApis | GetEnabledApis => "name"
  | GetApiIamPolicy => "serviceIamPolicy"
  | GetFullApiConfiguration => "serviceConfig"
  end.

(** The argument map of [getConfig] as the specification words it:
    [{serviceName: resource}] plus [configId] and [view] whenever they are
    supplied, that is, whenever they are not the default [None]. *)
Definition spec_config_arguments (resource : string) (config_id view : pyval)
  : gmap string pyval :=
  let arguments : gmap string pyval := {[ "serviceName" := PyStr resource ]} in
  let arguments :=
    match config_id with
    | PyNone => arguments
    | _ => <["configId" := config_id]> arguments
    end in
  match view with
  | PyNone => arguments
  | _ => <["view" := view]> arguments
  end.

(** What a call guarded by the handler of this module ends in, given the
    collaborator's answer [r] and the error [mk] builds from a cause. *)
Definition guarded {A} (r : py_exception + A)
    (mk : py_exception -> api_execution_error) : outcome A :=
  match r with
  | inr a => Return a
  | inl e =>
      if is_transport_failure e then Raise (ApiExecution (mk e))
      else Raise (Propagated e)
  end.

(** A remote side for examples: every call fails with HTTP status 503. *)
Definition unavailable : remote :=
  {| on_list := fun _ _ => PagesRaise (HttpError 503 "unavailable");
     on_get_iam_policy := fun _ => inl (HttpError 503 "unavailable");
     on_execute_query := fun _ _ => inl (HttpError 503 "unavailable") |}.

(** A remote side for examples: two pages of services, one policy, and a
    configuration document that echoes the arguments it was asked with. *)
Definition sample : remote :=
  {| on_list := fun _ _ =>
       pages_of [ {[ "services" := [PyStr "a"; PyStr "b"] ]};
                  ∅;
                  {[ "services" := [PyStr "c"] ]} ];
     on_get_iam_policy := fun resource =>
       inr (PyDict [("etag", PyStr resource)]);
     on_execute_query := fun verb verb_arguments =>
       inr (PyDict (map_to_list verb_arguments)) |}.

(** A remote side for examples: every call fails with the exception [e]. *)
Definition failing (e : py_exception) : remote :=
  {| on_list := fun _ _ => PagesRaise e;
     on_get_iam_policy := fun _ => inl e;
     on_execute_query := fun _ _ => inl e |}.

Definition w0 : world := World [] [].

(** ** The repository client as an object *)

(** Modelled from the spec: [BaseRepositoryClient._init_repository] is not
    part of the source file; the spec has the base repository construct a
    sub-repository of the class it is given from its own connection
    settings. [connection] stands for those settings and [constructions]
    counts the sub-repositories built so far. *)
Record repository_client : Type := {
  base : BaseRepositoryClient;
  connection : remote;
  _services : option GCPRepository;
  constructions : nat
}.

Definition _init_repository (self : repository_client)
    (repository_class : remote -> GCPRepository)
  : GCPRepository * repository_client :=
  (repository_class (connection self),
   {| base := base self; connection := connection self;
      _services := _services self;
      constructions := S (constructions self) |}).

Module RepositoryClient.

(** The object [ServiceManagementRepositoryClient(...)] evaluates to:
    [self._services = None], then the base constructor. *)
Definition construct (connection : remote) (quota_max_calls : option Z)
    (quota_period : float) (use_rate_limiter cache_discovery : bool)
    (cache : option Cache) : repository_client :=
  {| base := ServiceManagementRepositoryClient.__init__ quota_max_calls
               quota_period use_rate_limiter cache_discovery cache;
     connection := connection;
     _services := None;
     constructions := 0 |}.

(** [if not self._services:
       self._services = self._init_repository(
           _ServiceManagementServicesRepository)
     return self._services].
    A repository object is truthy, [None] is not. *)
Definition services (self : repository_client)
  : GCPRepository * repository_client :=
  match _services self with
  | Some handle => (handle, self)
  | None =>
      let '(handle, self) := _init_repository self Services.__init__ in
      (handle,
       {| base := base self; connection := connection self;
          _services := Some handle;
          constructions := constructions self |})
  end.

End RepositoryClient.

(** Reading the [services] property [n] times in a row: the handles
    read, first to last, and the client afterwards. *)
Fixpoint read_services (n : nat) (self : repository_client)
  : list GCPRepository * repository_client :=
  match n with
  | O => ([], self)
  | S n' =>
      let '(handle, self) := RepositoryClient.services self in
      let '(handles, self) := read_services n' self in
      (handle :: handles, self)
  end.

(** ** Vocabulary of the log *)

(** The arguments a debug record starts with: the identifier the caller
    passed, when the operation takes one. *)
Definition identifier_args (op : operation) : list pyval :=
  match name_of op with
  | GetAllApis => []
  | _ => [PyStr (argument op)]
  end.

Definition pyval_of (v : retval) : pyval :=
  match v with
  | Items l => PyList l
  | Document d => d
  end.

(** The format string of the debug record of each operation. *)
Definition debug_format (n : operation_name) : string :=
  match n with
  | GetAllApis => "Getting all visible APIs, flattened_results = %s"
  | GetProducedApis =>
      "Getting the APIs produced by a project, project_id = %s, "
      +:+ "flattened_results = %s"
  | GetEnabledApis =>
      "Getting the enabled APIs for a project, project_id = %s, "
      +:+ "flattened_results = %s"
  | GetApiIamPolicy =>
      "Getting IAM Policy for a service, service_name = %s, "
      +:+ "result = %s"
  | GetFullApiConfiguration =>
      "Getting Service Config for a service, service_name = %s, "
      +:+ "result = %s"
  end.

(** What an outcome leaves in the log: a debug record for a result, the
    error itself for a domain error, nothing for any other exception. *)
Definition log_after {A} (o : outcome A) (debug : A -> log_record)
  : list log_record :=
  match o with
  | Return a => [debug a]
  | Raise (ApiExecution err) => [LogException err]
  | Raise (Propagated _) => []
  end.

(** * Properties *)

(** ** Strings *)

Lemma startswith_append (p x : string) : startswith (p +:+ x) p = true.
Proof.
  induction p as [|c p IH]; simpl; [reflexivity|].
  rewrite Ascii.eqb_refl. exact IH.
Qed.

Lemma length_append (a b : string) :
  String.length (a +:+ b) = String.length a + String.length b.
Proof. induction a as [|c a IH]; simpl; [reflexivity | now rewrite IH]. Qed.

Lemma append_nonempty_neq (p x : string) :
  String.length p <> 0 -> p +:+ x <> x.
Proof.
  intros Hp Heq. apply (f_equal String.length) in Heq.
  rewrite length_append in Heq. lia.
Qed.

(** ** Name formatting *)

Section Formatting.

Import _ServiceManagementServicesRepository.

Lemma format_project_unprefixed x :
  startswith x "project:" = false ->
  get_formatted_project_name x = "project:" +:+ x.
Proof. intros H. unfold get_formatted_project_name. now rewrite H. Qed.

Lemma format_project_prefixed x :
  startswith x "project:" = true -> get_formatted_project_name x = x.
Proof. intros H. unfold get_formatted_project_name. now rewrite H. Qed.

Lemma format_project_startswith x :
  startswith (get_formatted_project_name x) "project:" = true.
Proof.
  destruct (startswith x "project:") eqn:E.
  - now rewrite format_project_prefixed.
  - rewrite format_project_unprefixed by exact E.
    exact (startswith_append "project:" x).
Qed.

Lemma format_service_unprefixed x :
  startswith x "services/" = false ->
  get_formatted_service_name x = "services/" +:+ x.
Proof. intros H. unfold get_formatted_service_name. now rewrite H. Qed.

Lemma format_service_prefixed x :
  startswith x "services/" = true -> get_formatted_service_name x = x.
Proof. intros H. unfold get_formatted_service_name. now rewrite H. Qed.

Lemma format_service_startswith x :
  startswith (get_formatted_service_name x) "services/" = true.
Proof.
  destruct (startswith x "services/") eqn:E.
  - now rewrite format_service_prefixed.
  - rewrite format_service_unprefixed by exact E.
    exact (startswith_append "services/" x).
Qed.

(** C5: [get_formatted_project_name] is defined on every string; an
    input that does not start with "project:" gets that prefix, an input
    that starts with it is returned unchanged, and formatting twice is
    formatting once. *)
Theorem get_formatted_project_name_spec (x : string) :
  (startswith x "project:" = false ->
     get_formatted_project_name x = "project:" +:+ x) /\
  (startswith x "project:" = true -> get_formatted_project_name x = x) /\
  get_formatted_project_name (get_formatted_project_name x)
    = get_formatted_project_name x.
Proof.
  split; [apply format_project_unprefixed|].
  split; [apply format_project_prefixed|].
  apply format_project_prefixed, format_project_startswith.
Qed.

(** C6: [get_formatted_service_name] is defined on every string; an
    input that does not start with "services/" gets that prefix, an
    input that starts with it is returned unchanged, and formatting
    twice is formatting once. *)
Theorem get_formatted_service_name_spec (x : string) :
  (startswith x "services/" = false ->
     get_formatted_service_name x = "services/" +:+ x) /\
  (startswith x "services/" = true -> get_formatted_service_name x = x) /\
  get_formatted_service_name (get_formatted_service_name x)
    = get_formatted_service_name x.
Proof.
  split; [apply format_service_unprefixed|].
  split; [apply format_service_prefixed|].
  apply format_service_prefixed, format_service_startswith.
Qed.

End Formatting.

Example format_project_p1 :
  Services.get_formatted_project_name "p1" = "project:p1".
Proof. reflexivity. Qed.

Example format_project_again :
  Services.get_formatted_project_name "project:p1" = "project:p1".
Proof. reflexivity. Qed.

Example format_service_svcA :
  Services.get_formatted_service_name "svcA" = "services/svcA".
Proof. reflexivity. Qed.

(** ** The repository client constructor *)

(** C9: when [quota_max_calls] is absent or zero the base repository is
    told not to use a rate limiter, whatever the caller asked for; when it
    is a positive integer the caller's choice is passed on unchanged. *)
Theorem init_use_rate_limiter
    (quota_max_calls : option Z) (quota_period : float)
    (use_rate_limiter0 cache_discovery0 : bool) (cache0 : option Cache) :
  let base :=
    ServiceManagementRepositoryClient.__init__ quota_max_calls quota_period
      use_rate_limiter0 cache_discovery0 cache0 in
  (quota_max_calls = None \/ quota_max_calls = Some 0%Z ->
     use_rate_limiter base = false) /\
  (forall n, (0 < n)%Z -> quota_max_calls = Some n ->
     use_rate_limiter base = use_rate_limiter0).
Proof.
  simpl. split.
  - intros [-> | ->]; reflexivity.
  - intros n Hn ->. simpl.
    destruct (Z.eqb_spec n 0) as [->|_]; [lia | reflexivity].
Qed.

(** ** Pagination *)

Lemma flatten_raises ps k e :
  flatten_list_results ps k = inl e <-> pages_failure ps = Some e.
Proof.
  induction ps as [|p rest IH|e']; simpl.
  - split; discriminate.
  - destruct (flatten_list_results rest k) as [e''|items].
    + rewrite <- IH. split; intros H; exact H.
    + rewrite <- IH. split; discriminate.
  - split; intros H; injection H as ->; reflexivity.
Qed.

Lemma flatten_returns ps k :
  pages_failure ps = None <-> exists items, flatten_list_results ps k = inr items.
Proof.
  destruct (flatten_list_results ps k) as [e|items] eqn:E.
  - apply flatten_raises in E. rewrite E. split; [discriminate|].
    intros [items H]. discriminate.
  - split; [intros _; now exists items|]. intros _.
    destruct (pages_failure ps) as [e|] eqn:F; [|reflexivity].
    apply (flatten_raises ps k) in F. congruence.
Qed.

Lemma flatten_pages_of (ps : list page) k :
  flatten_list_results (pages_of ps) k
  = inr (concat (map (fun p : page => default [] (p !! k)) ps)).
Proof.
  induction ps as [|p ps IH]; simpl; [reflexivity|]. now rewrite IH.
Qed.

Example flatten_three_pages :
  flatten_list_results
    (pages_of [ {[ "services" := [PyStr "a"; PyStr "b"] ]};
                {[ "services" := [] ]};
                {[ "services" := [PyStr "c"] ]} ]) "services"
  = inr [PyStr "a"; PyStr "b"; PyStr "c"].
Proof. reflexivity. Qed.

(** ** How each operation runs *)

Ltac run_monad :=
  unfold fmap_M, bind, try_except, ret, raise, answer, dispatch, log;
  simpl.

Section Runs.

Variable services : GCPRepository.
Variable w : world.

Import ServiceManagementClient.

Lemma get_all_apis_run :
  calls (fst (get_all_apis services w))
    = calls w ++ [CallList ∅ (Some 100%Z)] /\
  snd (get_all_apis services w)
    = guarded
        (flatten_list_results (list_response services ∅ (Some 100%Z))
           "services")
        (fun e => ApiExecutionError "" e None).
Proof.
  unfold get_all_apis, Services.list, DEFAULT_MAX_RESULTS, guarded.
  run_monad.
  destruct (flatten_list_results _ _) as [e|items]; simpl;
    [destruct (is_transport_failure e)|]; simpl; auto.
Qed.

Lemma get_produced_apis_run project_id :
  let kwargs : gmap string pyval :=
    {[ "producerProjectId" := PyStr project_id ]} in
  calls (fst (get_produced_apis services project_id w))
    = calls w ++ [CallList kwargs (Some 100%Z)] /\
  snd (get_produced_apis services project_id w)
    = guarded
        (flatten_list_results (list_response services kwargs (Some 100%Z))
           "services")
        (fun e => ApiExecutionError "name" e
                    (Some ("project_id", project_id))).
Proof.
  unfold get_produced_apis, Services.list, DEFAULT_MAX_RESULTS, guarded.
  run_monad.
  destruct (flatten_list_results _ _) as [e|items]; simpl;
    [destruct (is_transport_failure e)|]; simpl; auto.
Qed.

Lemma get_enabled_apis_run project_id :
  let kwargs : gmap string pyval :=
    {[ "consumerId" :=
         PyStr (Services.get_formatted_project_name project_id) ]} in
  calls (fst (get_enabled_apis services project_id w))
    = calls w ++ [CallList kwargs (Some 100%Z)] /\
  snd (get_enabled_apis services project_id w)
    = guarded
        (flatten_list_results (list_response services kwargs (Some 100%Z))
           "services")
        (fun e => ApiExecutionError "name" e
                    (Some ("project_id", project_id))).
Proof.
  unfold get_enabled_apis, Services.list, DEFAULT_MAX_RESULTS, guarded.
  run_monad.
  destruct (flatten_list_results _ _) as [e|items]; simpl;
    [destruct (is_transport_failure e)|]; simpl; auto.
Qed.

Lemma get_api_iam_policy_run service_name :
  let name := Services.get_formatted_service_name service_name in
  calls (fst (get_api_iam_policy services service_name w))
    = calls w ++ [CallGetIamPolicy name] /\
  snd (get_api_iam_policy services service_name w)
    = guarded (get_iam_policy_response services name)
        (fun e => ApiExecutionError "serviceIamPolicy" e
                    (Some ("serviceName", service_name))).
Proof.
  unfold get_api_iam_policy, Services.get_iam_policy, guarded.
  run_monad.
  destruct (get_iam_policy_response _ _) as [e|policy]; simpl;
    [destruct (is_transport_failure e)|]; simpl; auto.
Qed.

Lemma get_config_run resource config_id view verb :
  let arguments : gmap string pyval :=
    (if truthy view then <["view" := view]> else id)
      ((if truthy config_id then <["configId" := config_id]> else id)
         {[ _get_key_field services := PyStr resource ]}) in
  Services.get_config services resource config_id view verb w
  = (World (calls w ++ [CallExecuteQuery verb arguments]) (logged w),
     match execute_query_response services verb arguments with
     | inl e => Raise (Propagated e)
     | inr document => Return document
     end).
Proof.
  unfold Services.get_config, Services.execute_query.
  run_monad.
  destruct (truthy config_id), (truthy view); simpl;
    destruct (execute_query_response _ _ _); reflexivity.
Qed.

Lemma get_full_api_configuration_run service_name :
  let arguments : gmap string pyval :=
    {[ _get_key_field services := PyStr service_name ]} in
  calls (fst (get_full_api_configuration services service_name w))
    = calls w ++ [CallExecuteQuery "getConfig" arguments] /\
  snd (get_full_api_configuration services service_name w)
    = guarded (execute_query_response services "getConfig" arguments)
        (fun e => ApiExecutionError "serviceConfig" e
                    (Some ("serviceName", service_name))).
Proof.
  unfold get_full_api_configuration, guarded.
  run_monad. rewrite get_config_run. simpl.
  destruct (execute_query_response _ _ _) as [e|document]; simpl;
    [destruct (is_transport_failure e)|]; simpl; auto.
Qed.

End Runs.

(** ** Exception translation *)

Lemma fmap_M_run {A B} (f : A -> B) (m : M A) (w : world) :
  fst (fmap_M f m w) = fst (m w) /\
  snd (fmap_M f m w)
    = match snd (m w) with
      | Return a => Return (f a)
      | Raise e => Raise e
      end.
Proof. run_monad. destruct (m w) as [w' [a|e]]; simpl; auto. Qed.

Lemma guarded_api_execution {A} (r : py_exception + A) mk err :
  guarded r mk = Raise (ApiExecution err) <->
  exists e, r = inl e /\ is_transport_failure e = true /\ err = mk e.
Proof.
  unfold guarded. destruct r as [e|a].
  - destruct (is_transport_failure e) eqn:E; split.
    + intros H. injection H as <-. now exists e.
    + intros (e' & He & _ & ->). injection He as <-. reflexivity.
    + discriminate.
    + intros (e' & He & Ht & _). injection He as <-. congruence.
  - split; [discriminate|]. intros (e & He & _). discriminate.
Qed.

Lemma guarded_propagated {A} (r : py_exception + A) mk e :
  r = inl e -> is_transport_failure e = false ->
  guarded r mk = Raise (Propagated e).
Proof. intros -> H. unfold guarded. now rewrite H. Qed.

Lemma answer_failure {A} (r : py_exception + A) e :
  r = inl e <-> match r with inl e' => Some e' | inr _ => None end = Some e.
Proof. destruct r; split; congruence. Qed.

(** The four facts of the translation, for any operation that dispatches
    one call [c] and ends as [guarded] says. *)
Lemma translation_of_guarded {A} (services : GCPRepository) (c : call)
    (r : py_exception + A) (mk : py_exception -> api_execution_error)
    (ident : option (string * string)) (f : A -> retval) (m : M A)
    (w : world) :
  calls (fst (m w)) = calls w ++ [c] ->
  snd (m w) = guarded r mk ->
  (forall e, r = inl e <-> call_failure services c = Some e) ->
  (forall e, http_error (mk e) = e /\ tag (mk e) = ident) ->
  calls (fst (fmap_M f m w)) = calls w ++ [c] /\
  ((exists err, snd (fmap_M f m w) = Raise (ApiExecution err)) <->
   (exists cause, call_failure services c = Some cause /\
                  is_transport_failure cause = true)) /\
  (forall err, snd (fmap_M f m w) = Raise (ApiExecution err) ->
     call_failure services c = Some (http_error err) /\ tag err = ident) /\
  (forall cause, call_failure services c = Some cause ->
     is_transport_failure cause = false ->
     snd (fmap_M f m w) = Raise (Propagated cause)) /\
  (call_failure services c = None ->
     exists v, snd (fmap_M f m w) = Return v).
Proof.
  intros Hcalls Hsnd Hfail Hmk.
  destruct (fmap_M_run f m w) as [Hf Hs]. rewrite Hf, Hs, Hsnd. clear Hf Hs.
  assert (Hraise : forall err,
    match guarded r mk with
    | Return a => Return (f a)
    | Raise e => Raise e
    end = Raise (ApiExecution err) <->
    guarded r mk = Raise (ApiExecution err)).
  { intros err. destruct (guarded r mk); split; congruence. }
  split; [exact Hcalls|]. split; [|split; [|split]].
  - split.
    + intros [err H]. apply Hraise, guarded_api_execution in H.
      destruct H as (e & He & Ht & _). exists e. split; [now apply Hfail|exact Ht].
    + intros (cause & Hc & Ht). exists (mk cause). apply Hraise.
      apply guarded_api_execution. exists cause. split; [now apply Hfail|auto].
  - intros err H. apply Hraise, guarded_api_execution in H.
    destruct H as (e & He & _ & ->). destruct (Hmk e) as [-> ->].
    split; [now apply Hfail|reflexivity].
  - intros cause Hc Ht. apply Hfail in Hc.
    now rewrite (guarded_propagated r mk cause Hc Ht).
  - intros Hnone. destruct r as [e|a].
    + assert (call_failure services c = Some e) by now apply Hfail.
      congruence.
    + exists (f a). reflexivity.
Qed.

(** The translation in terms of the handler's class test. *)
Lemma translation_by_class_test
    (services : GCPRepository) (op : operation) (w : world) :
  exists c : call,
    calls (fst (run services op w)) = calls w ++ [c] /\
    ((exists err, snd (run services op w) = Raise (ApiExecution err)) <->
     (exists cause, call_failure services c = Some cause /\
                    is_transport_failure cause = true)) /\
    (forall err, snd (run services op w) = Raise (ApiExecution err) ->
       call_failure services c = Some (http_error err) /\
       tag err = input_identifier op) /\
    (forall cause, call_failure services c = Some cause ->
       is_transport_failure cause = false ->
       snd (run services op w) = Raise (Propagated cause)) /\
    (call_failure services c = None ->
       exists v, snd (run services op w) = Return v).
Proof.
  destruct op as [n a]. unfold run, input_identifier. simpl.
  destruct n.
  - destruct (get_all_apis_run services w) as [Hc Hs].
    eexists. eapply translation_of_guarded; [exact Hc|exact Hs| |].
    + intros e. simpl. apply flatten_raises.
    + intros e. split; reflexivity.
  - destruct (get_produced_apis_run services w a) as [Hc Hs].
    eexists. eapply translation_of_guarded; [exact Hc|exact Hs| |].
    + intros e. simpl. apply flatten_raises.
    + intros e. split; reflexivity.
  - destruct (get_enabled_apis_run services w a) as [Hc Hs].
    eexists. eapply translation_of_guarded; [exact Hc|exact Hs| |].
    + intros e. simpl. apply flatten_raises.
    + intros e. split; reflexivity.
  - destruct (get_api_iam_policy_run services w a) as [Hc Hs].
    eexists. eapply translation_of_guarded; [exact Hc|exact Hs| |].
    + intros e. simpl. apply answer_failure.
    + intros e. split; reflexivity.
  - destruct (get_full_api_configuration_run services w a) as [Hc Hs].
    eexists. eapply translation_of_guarded; [exact Hc|exact Hs| |].
    + intros e. simpl. apply answer_failure.
    + intros e. split; reflexivity.
Qed.

(** The classes the handler catches are [HttpError] and [HttpLib2Error],
    and no other. *)
Lemma caught_classes (e : py_exception) :
  is_transport_failure e = true <->
  (exists status content, e = HttpError status content) \/
  (exists msg, e = HttpLib2Error msg).
Proof.
  destruct e as [status content|msg|cls msg]; simpl; split.
  - intros _. left. now exists status, content.
  - reflexivity.
  - intros _. right. now exists msg.
  - reflexivity.
  - discriminate.
  - intros [(status & content & H)|(msg' & H)]; discriminate.
Qed.

(** C1: each of the five operations dispatches one call; it raises the
    domain error exactly when the transport fails on that call with an
    [HttpError] or with an [HttpLib2Error]; the error raised carries that
    failure as its cause and the identifier as the caller passed it; an
    exception of any other class is raised as it is, untranslated; and
    without a failure the operation returns. *)
Theorem transport_failure_translation
    (services : GCPRepository) (op : operation) (w : world) :
  exists c : call,
    calls (fst (run services op w)) = calls w ++ [c] /\
    ((exists err, snd (run services op w) = Raise (ApiExecution err)) <->
     ((exists status content,
         call_failure services c = Some (HttpError status content)) \/
      (exists msg, call_failure services c = Some (HttpLib2Error msg)))) /\
    (forall err, snd (run services op w) = Raise (ApiExecution err) ->
       call_failure services c = Some (http_error err) /\
       tag err = input_identifier op /\
       ((exists status content, http_error err = HttpError status content) \/
        (exists msg, http_error err = HttpLib2Error msg))) /\
    (forall cls msg,
       call_failure services c = Some (OtherException cls msg) ->
       snd (run services op w) = Raise (Propagated (OtherException cls msg))) /\
    (call_failure services c = None ->
       exists v, snd (run services op w) = Return v).
Proof.
  destruct (translation_by_class_test services op w)
    as (c & Hcalls & Hiff & Hcarry & Hprop & Hret).
  exists c. split; [exact Hcalls|].
  split; [|split; [|split; [|exact Hret]]].
  - rewrite Hiff. split.
    + intros (cause & Hc & Ht). apply caught_classes in Ht.
      destruct Ht as [(status & content & ->)|(msg & ->)];
        [left; now exists status, content | right; now exists msg].
    + intros [(status & content & H)|(msg & H)];
        eexists; (split; [exact H|reflexivity]).
  - intros err Herr. destruct (Hcarry err Herr) as [Hcause Htag].
    split; [exact Hcause|]. split; [exact Htag|].
    apply caught_classes.
    destruct (is_transport_failure (http_error err)) eqn:E; [reflexivity|].
    rewrite (Hprop _ Hcause E) in Herr. discriminate Herr.
  - intros cls msg H. apply Hprop; [exact H|reflexivity].
Qed.

Example enabled_apis_error_keeps_raw_id :
  let services := Services.__init__ unavailable in
  calls (fst (ServiceManagementClient.get_enabled_apis services "p1" w0))
    = [CallList {[ "consumerId" := PyStr "project:p1" ]} (Some 100%Z)] /\
  snd (ServiceManagementClient.get_enabled_apis services "p1" w0)
    = Raise (ApiExecution
               (ApiExecutionError "name" (HttpError 503 "unavailable")
                  (Some ("project_id", "p1")))).
Proof. split; reflexivity. Qed.

(** ** Dispatched calls *)

(** C2: [get_enabled_apis] dispatches one list call whose only filter is
    [consumerId], set to the formatted project name, with [max_results]
    100; the value sent starts with "project:", and for an input without
    that prefix it is "project:" followed by the input, which differs
    from the input. *)
Theorem get_enabled_apis_dispatch
    (services : GCPRepository) (p1 : string) (w : world) :
  let sent := Services.get_formatted_project_name p1 in
  calls (fst (ServiceManagementClient.get_enabled_apis services p1 w))
    = calls w ++ [CallList {[ "consumerId" := PyStr sent ]} (Some 100%Z)] /\
  startswith sent "project:" = true /\
  (startswith p1 "project:" = false ->
     sent = "project:" +:+ p1 /\ sent <> p1).
Proof.
  simpl. split; [apply get_enabled_apis_run|].
  split; [apply format_project_startswith|].
  intros H. rewrite (format_project_unprefixed _ H).
  split; [reflexivity|]. apply append_nonempty_neq. simpl. lia.
Qed.

(** C3: [get_api_iam_policy] dispatches [get_iam_policy] with the
    formatted service name, which for an input without the "services/"
    prefix is "services/" followed by the input and differs from the
    input; when the sub-repository returns a policy document, that
    document is the result. *)
Theorem get_api_iam_policy_dispatch
    (services : GCPRepository) (s : string) (w : world) :
  let sent := Services.get_formatted_service_name s in
  calls (fst (ServiceManagementClient.get_api_iam_policy services s w))
    = calls w ++ [CallGetIamPolicy sent] /\
  startswith sent "services/" = true /\
  (startswith s "services/" = false ->
     sent = "services/" +:+ s /\ sent <> s) /\
  (forall policy,
     get_iam_policy_response services sent = inr policy ->
     snd (ServiceManagementClient.get_api_iam_policy services s w)
       = Return policy).
Proof.
  simpl. destruct (get_api_iam_policy_run services w s) as [Hc Hs].
  split; [exact Hc|]. split; [apply format_service_startswith|]. split.
  - intros H. rewrite (format_service_unprefixed _ H).
    split; [reflexivity|]. apply append_nonempty_neq. simpl. lia.
  - intros policy H. rewrite Hs, H. reflexivity.
Qed.

(** C4: [get_all_apis] dispatches exactly one list call, with no filter
    at all and [max_results] 100; when the pages arrive without failure
    it returns the items under 'services' of all pages, in order; when
    the transport fails it raises the domain error with that cause and
    no tag. *)
Theorem get_all_apis_behaviour (services : GCPRepository) (w : world) :
  let response := list_response services ∅ (Some 100%Z) in
  (exists kwargs : gmap string pyval,
     calls (fst (ServiceManagementClient.get_all_apis services w))
       = calls w ++ [CallList kwargs (Some 100%Z)] /\
     kwargs !! "producerProjectId" = None /\
     kwargs !! "consumerId" = None /\
     kwargs = ∅) /\
  (forall ps : list page,
     response = pages_of ps ->
     snd (ServiceManagementClient.get_all_apis services w)
       = Return (concat
                   (map (fun p : page => default [] (p !! "services")) ps))) /\
  (forall items,
     flatten_list_results response "services" = inr items ->
     snd (ServiceManagementClient.get_all_apis services w) = Return items) /\
  (forall cause,
     pages_failure response = Some cause ->
     is_transport_failure cause = true ->
     snd (ServiceManagementClient.get_all_apis services w)
       = Raise (ApiExecution (ApiExecutionError "" cause None))).
Proof.
  simpl. destruct (get_all_apis_run services w) as [Hc Hs].
  split; [|split; [|split]].
  - exists ∅. split; [exact Hc|]. split; [|split]; reflexivity.
  - intros ps H. rewrite Hs, H, flatten_pages_of. reflexivity.
  - intros items H. rewrite Hs, H. reflexivity.
  - intros cause Hf Ht. apply (flatten_raises _ "services") in Hf.
    rewrite Hs, Hf. unfold guarded. now rewrite Ht.
Qed.

(** ** Service configuration *)

(** C7, as stated, fails: with [config_id] supplied as the empty string
    the call is dispatched with [{serviceName: "svcA"}] alone, not with
    the map that also holds [configId]. *)
Lemma get_config_empty_config_id_dropped :
  let services := Services.__init__ sample in
  calls (fst (Services.get_config services "svcA" (PyStr "") PyNone
                "getConfig" w0))
    = [CallExecuteQuery "getConfig" {[ "serviceName" := PyStr "svcA" ]}] /\
  calls (fst (Services.get_config services "svcA" (PyStr "") PyNone
                "getConfig" w0))
    <> [CallExecuteQuery "getConfig"
          (spec_config_arguments "svcA" (PyStr "") PyNone)].
Proof.
  split; [reflexivity|]. intros H.
  apply (f_equal (fun l : list call =>
                    match l with
                    | [CallExecuteQuery _ arguments] => arguments !! "configId"
                    | _ => None
                    end)) in H.
  vm_compute in H. discriminate H.
Qed.

Lemma init_config_arguments (kwargs : remote) resource config_id view :
  let arguments : gmap string pyval :=
    (if truthy view then <["view" := view]> else id)
      ((if truthy config_id then <["configId" := config_id]> else id)
         {[ _get_key_field (Services.__init__ kwargs) := PyStr resource ]}) in
  arguments !! "serviceName" = Some (PyStr resource) /\
  arguments !! "configId" = (if truthy config_id then Some config_id else None) /\
  arguments !! "view" = (if truthy view then Some view else None) /\
  (forall k, k <> "serviceName" -> k <> "configId" -> k <> "view" ->
     arguments !! k = None).
Proof.
  cbv zeta. change (_get_key_field (Services.__init__ kwargs)) with "serviceName".
  destruct (truthy config_id), (truthy view); unfold id;
    repeat split; intros; simplify_map_eq; done.
Qed.

(** C7, amended: [get_config] dispatches the named verb with an argument
    map that binds [serviceName] to the resource, binds [configId] and
    [view] exactly when they are truthy, and binds nothing else;
    [get_full_api_configuration] dispatches [getConfig] with
    [{serviceName: service_name}] alone and, when the sub-repository
    returns a document, returns that document unchanged. *)
Theorem get_config_dispatch
    (kwargs : remote) (resource : string) (config_id view : pyval)
    (verb service_name : string) (w : world) :
  let services := Services.__init__ kwargs in
  (exists arguments : gmap string pyval,
     calls (fst (Services.get_config services resource config_id view verb w))
       = calls w ++ [CallExecuteQuery verb arguments] /\
     arguments !! "serviceName" = Some (PyStr resource) /\
     arguments !! "configId"
       = (if truthy config_id then Some config_id else None) /\
     arguments !! "view" = (if truthy view then Some view else None) /\
     (forall k, k <> "serviceName" -> k <> "configId" -> k <> "view" ->
        arguments !! k = None)) /\
  calls (fst (ServiceManagementClient.get_full_api_configuration services
                service_name w))
    = calls w ++ [CallExecuteQuery "getConfig"
                    {[ "serviceName" := PyStr service_name ]}] /\
  (forall document,
     on_execute_query kwargs "getConfig"
       {[ "serviceName" := PyStr service_name ]} = inr document ->
     snd (ServiceManagementClient.get_full_api_configuration services
            service_name w) = Return document).
Proof.
  cbv zeta. split; [|split].
  - eexists. rewrite get_config_run. split; [reflexivity|].
    apply init_config_arguments.
  - apply (get_full_api_configuration_run (Services.__init__ kwargs)).
  - intros document H.
    destruct (get_full_api_configuration_run (Services.__init__ kwargs) w
                service_name) as [_ Hs].
    rewrite Hs.
    change (execute_query_response (Services.__init__ kwargs))
      with (on_execute_query kwargs).
    change (_get_key_field (Services.__init__ kwargs)) with "serviceName".
    rewrite H. reflexivity.
Qed.

(** C10: a falsy [config_id] or [view] (the empty string, for one) is
    treated as if it had been omitted: the run is the same as with
    [None] in its place, and the argument map binds [configId] and [view]
    only when they are truthy. *)
Theorem get_config_falsy_dropped
    (kwargs : remote) (resource : string) (config_id view : pyval)
    (verb : string) (w : world) :
  let services := Services.__init__ kwargs in
  (truthy config_id = false ->
     Services.get_config services resource config_id view verb w
     = Services.get_config services resource PyNone view verb w) /\
  (truthy view = false ->
     Services.get_config services resource config_id view verb w
     = Services.get_config services resource config_id PyNone verb w) /\
  (exists arguments : gmap string pyval,
     calls (fst (Services.get_config services resource config_id view verb w))
       = calls w ++ [CallExecuteQuery verb arguments] /\
     (is_Some (arguments !! "configId") <-> truthy config_id = true) /\
     (is_Some (arguments !! "view") <-> truthy view = true)).
Proof.
  cbv zeta. split; [|split].
  - intros H. rewrite !get_config_run. cbv zeta. rewrite H. reflexivity.
  - intros H. rewrite !get_config_run. cbv zeta. rewrite H. reflexivity.
  - eexists. rewrite get_config_run. split; [reflexivity|].
    destruct (init_config_arguments kwargs resource config_id view)
      as (_ & Hc & Hv & _).
    cbv zeta in Hc, Hv. rewrite Hc, Hv.
    destruct (truthy config_id), (truthy view); split; split;
      intros H; try reflexivity; try discriminate; try (now eexists);
      destruct H; discriminate.
Qed.

(** ** Error labels *)

Lemma run_error_shape services op w err :
  snd (run services op w) = Raise (ApiExecution err) ->
  exists cause,
    err = ApiExecutionError (label_of (name_of op)) cause (input_identifier op).
Proof.
  destruct op as [n a]. unfold run, input_identifier. simpl.
  intros H.
  assert (Hm : forall A (f : A -> retval) (m : M A) r mk,
             snd (m w) = guarded r mk ->
             snd (fmap_M f m w) = Raise (ApiExecution err) ->
             exists cause, err = mk cause).
  { intros A f m r mk Hs Hf.
    destruct (fmap_M_run f m w) as [_ Hs']. rewrite Hs', Hs in Hf.
    destruct (guarded r mk) as [v|e] eqn:G; [discriminate|].
    injection Hf as ->. apply guarded_api_execution in G.
    destruct G as (cause & _ & _ & ->). now exists cause. }
  destruct n.
  - exact (Hm _ _ _ _ _ (proj2 (get_all_apis_run services w)) H).
  - exact (Hm _ _ _ _ _ (proj2 (get_produced_apis_run services w a)) H).
  - exact (Hm _ _ _ _ _ (proj2 (get_enabled_apis_run services w a)) H).
  - exact (Hm _ _ _ _ _ (proj2 (get_api_iam_policy_run services w a)) H).
  - exact (Hm _ _ _ _ _
             (proj2 (get_full_api_configuration_run services w a)) H).
Qed.

(** C8, as stated, fails: [get_produced_apis] and [get_enabled_apis]
    raise the very same error, label included, on the same input. *)
Lemma produced_and_enabled_share_label :
  let services := Services.__init__ unavailable in
  let err := ApiExecutionError "name" (HttpError 503 "unavailable")
               (Some ("project_id", "p1")) in
  snd (run services (Invoke GetProducedApis "p1") w0)
    = Raise (ApiExecution err) /\
  snd (run services (Invoke GetEnabledApis "p1") w0)
    = Raise (ApiExecution err) /\
  GetProducedApis <> GetEnabledApis.
Proof. cbv zeta. split; [|split]; [reflexivity | reflexivity | discriminate]. Qed.

(** C8, amended: the label of the error an operation raises is the
    constant of that operation: the empty string for [get_all_apis],
    "name" for [get_produced_apis] and for [get_enabled_apis],
    "serviceIamPolicy" for [get_api_iam_policy], "serviceConfig" for
    [get_full_api_configuration]; it tells the operations apart except
    for the two that share "name". *)
Theorem error_label_of_operation
    (services : GCPRepository) (op : operation) (w : world)
    (err : api_execution_error) :
  snd (run services op w) = Raise (ApiExecution err) ->
  label err = label_of (name_of op) /\
  (forall n : operation_name,
     label_of n = label err ->
     n = name_of op \/
     (n = GetProducedApis /\ name_of op = GetEnabledApis) \/
     (n = GetEnabledApis /\ name_of op = GetProducedApis)).
Proof.
  intros H. apply run_error_shape in H. destruct H as [cause ->]. simpl.
  split; [reflexivity|].
  intros n. destruct n, (name_of op); simpl; intros E;
    try discriminate E; auto.
Qed.

Lemma error_label_of_operation_witness :
  let services := Services.__init__ unavailable in
  let op := Invoke GetApiIamPolicy "svcA" in
  let err := ApiExecutionError "serviceIamPolicy"
               (HttpError 503 "unavailable") (Some ("serviceName", "svcA")) in
  snd (run services op w0) = Raise (ApiExecution err) /\
  label err = "serviceIamPolicy" /\
  (forall n : operation_name,
     label_of n = label err ->
     n = GetApiIamPolicy \/
     (n = GetProducedApis /\ GetApiIamPolicy = GetEnabledApis) \/
     (n = GetEnabledApis /\ GetApiIamPolicy = GetProducedApis)).
Proof.
  cbv zeta. split; [reflexivity|].
  apply (error_label_of_operation (Services.__init__ unavailable)
           (Invoke GetApiIamPolicy "svcA") w0).
  reflexivity.
Defined.

(** ** The statements at concrete inputs *)

Lemma get_formatted_project_name_spec_witness :
  startswith "p1" "project:" = false /\
  startswith "project:p1" "project:" = true /\
  Services.get_formatted_project_name "p1" = "project:p1" /\
  Services.get_formatted_project_name "project:p1" = "project:p1".
Proof.
  split; [reflexivity|]. split; [reflexivity|]. split.
  - apply (proj1 (get_formatted_project_name_spec "p1")). reflexivity.
  - apply (proj1 (proj2 (get_formatted_project_name_spec "project:p1"))).
    reflexivity.
Defined.

Lemma get_formatted_service_name_spec_witness :
  startswith "svcA" "services/" = false /\
  startswith "services/svcA" "services/" = true /\
  Services.get_formatted_service_name "svcA" = "services/svcA" /\
  Services.get_formatted_service_name "services/svcA" = "services/svcA".
Proof.
  split; [reflexivity|]. split; [reflexivity|]. split.
  - apply (proj1 (get_formatted_service_name_spec "svcA")). reflexivity.
  - apply (proj1 (proj2 (get_formatted_service_name_spec "services/svcA"))).
    reflexivity.
Defined.

Lemma init_use_rate_limiter_witness :
  use_rate_limiter
    (ServiceManagementRepositoryClient.__init__ None 100%float true false None)
    = false /\
  use_rate_limiter
    (ServiceManagementRepositoryClient.__init__ (Some 0%Z) 100%float true
       false None) = false /\
  use_rate_limiter
    (ServiceManagementRepositoryClient.__init__ (Some 5%Z) 100%float true
       false None) = true.
Proof.
  split; [|split].
  - apply (proj1 (init_use_rate_limiter None 100%float true false None)).
    left. reflexivity.
  - apply (proj1 (init_use_rate_limiter (Some 0%Z) 100%float true false None)).
    right. reflexivity.
  - apply (proj2 (init_use_rate_limiter (Some 5%Z) 100%float true false None)
             5%Z); [lia | reflexivity].
Defined.

Lemma get_enabled_apis_dispatch_witness :
  startswith "p1" "project:" = false /\
  Services.get_formatted_project_name "p1" = "project:" +:+ "p1" /\
  Services.get_formatted_project_name "p1" <> "p1".
Proof.
  split; [reflexivity|].
  apply (proj2 (proj2 (get_enabled_apis_dispatch (Services.__init__ sample)
                         "p1" w0))).
  reflexivity.
Defined.

Lemma get_api_iam_policy_dispatch_witness :
  startswith "svcA" "services/" = false /\
  (Services.get_formatted_service_name "svcA" = "services/" +:+ "svcA" /\
   Services.get_formatted_service_name "svcA" <> "svcA") /\
  snd (ServiceManagementClient.get_api_iam_policy (Services.__init__ sample)
         "svcA" w0)
    = Return (PyDict [("etag", PyStr "services/svcA")]).
Proof.
  split; [reflexivity|].
  destruct (get_api_iam_policy_dispatch (Services.__init__ sample) "svcA" w0)
    as (_ & _ & Hraw & Hpolicy).
  split; [apply Hraw; reflexivity | apply Hpolicy; reflexivity].
Defined.

Lemma get_all_apis_behaviour_witness :
  snd (ServiceManagementClient.get_all_apis (Services.__init__ sample) w0)
    = Return [PyStr "a"; PyStr "b"; PyStr "c"] /\
  snd (ServiceManagementClient.get_all_apis (Services.__init__ unavailable) w0)
    = Raise (ApiExecution
               (ApiExecutionError "" (HttpError 503 "unavailable") None)).
Proof.
  split.
  - destruct (get_all_apis_behaviour (Services.__init__ sample) w0)
      as (_ & Hpages & _ & _).
    rewrite (Hpages [ {[ "services" := [PyStr "a"; PyStr "b"] ]};
                      ∅;
                      {[ "services" := [PyStr "c"] ]} ] eq_refl).
    reflexivity.
  - destruct (get_all_apis_behaviour (Services.__init__ unavailable) w0)
      as (_ & _ & _ & Hfail).
    apply Hfail; reflexivity.
Defined.

Lemma get_config_dispatch_witness :
  snd (ServiceManagementClient.get_full_api_configuration
         (Services.__init__ sample) "svcA" w0)
    = Return (PyDict [("serviceName", PyStr "svcA")]).
Proof.
  apply (proj2 (proj2 (get_config_dispatch sample "svcA" PyNone PyNone
                         "getConfig" "svcA" w0))).
  reflexivity.
Defined.

Lemma get_config_falsy_dropped_witness :
  truthy (PyStr "") = false /\
  Services.get_config (Services.__init__ sample) "svcA" (PyStr "")
    (PyStr "FULL") "getConfig" w0
  = Services.get_config (Services.__init__ sample) "svcA" PyNone
      (PyStr "FULL") "getConfig" w0 /\
  Services.get_config (Services.__init__ sample) "svcA" (PyStr "cfg")
    (PyStr "") "getConfig" w0
  = Services.get_config (Services.__init__ sample) "svcA" (PyStr "cfg")
      PyNone "getConfig" w0.
Proof.
  split; [reflexivity|]. split.
  - apply (proj1 (get_config_falsy_dropped sample "svcA" (PyStr "")
                    (PyStr "FULL") "getConfig" w0)).
    reflexivity.
  - apply (proj1 (proj2 (get_config_falsy_dropped sample "svcA" (PyStr "cfg")
                           (PyStr "") "getConfig" w0))).
    reflexivity.
Defined.

Lemma transport_failure_translation_witness :
  let op := Invoke GetApiIamPolicy "svcA" in
  let on e := Services.__init__ (failing e) in
  (exists err,
     snd (run (on (HttpError 503 "unavailable")) op w0)
       = Raise (ApiExecution err) /\
     http_error err = HttpError 503 "unavailable" /\
     tag err = Some ("serviceName", "svcA")) /\
  (exists err,
     snd (run (on (HttpLib2Error "timed out")) op w0)
       = Raise (ApiExecution err) /\
     http_error err = HttpLib2Error "timed out" /\
     tag err = Some ("serviceName", "svcA")) /\
  snd (run (on (OtherException "KeyError" "name")) op w0)
    = Raise (Propagated (OtherException "KeyError" "name")) /\
  (exists v, snd (run (Services.__init__ sample) op w0) = Return v).
Proof.
  cbv zeta. split; [|split; [|split]].
  - destruct (transport_failure_translation
                (Services.__init__ (failing (HttpError 503 "unavailable")))
                (Invoke GetApiIamPolicy "svcA") w0)
      as (c & Hcalls & Hiff & Hcarry & _ & _).
    cbv in Hcalls. injection Hcalls as <-.
    destruct (proj2 Hiff) as [err Herr].
    { left. exists 503%Z, "unavailable". reflexivity. }
    exists err. split; [exact Herr|].
    destruct (Hcarry err Herr) as (Hcause & Htag & _).
    split; [|exact Htag].
    injection Hcause as <-. reflexivity.
  - destruct (transport_failure_translation
                (Services.__init__ (failing (HttpLib2Error "timed out")))
                (Invoke GetApiIamPolicy "svcA") w0)
      as (c & Hcalls & Hiff & Hcarry & _ & _).
    cbv in Hcalls. injection Hcalls as <-.
    destruct (proj2 Hiff) as [err Herr].
    { right. exists "timed out". reflexivity. }
    exists err. split; [exact Herr|].
    destruct (Hcarry err Herr) as (Hcause & Htag & _).
    split; [|exact Htag].
    injection Hcause as <-. reflexivity.
  - destruct (transport_failure_translation
                (Services.__init__
                   (failing (OtherException "KeyError" "name")))
                (Invoke GetApiIamPolicy "svcA") w0)
      as (c & Hcalls & _ & _ & Hother & _).
    cbv in Hcalls. injection Hcalls as <-.
    apply Hother. reflexivity.
  - destruct (transport_failure_translation (Services.__init__ sample)
                (Invoke GetApiIamPolicy "svcA") w0)
      as (c & Hcalls & _ & _ & _ & Hret).
    cbv in Hcalls. injection Hcalls as <-.
    apply Hret. reflexivity.
Defined.

(** * Further properties of the code *)

(** ** What reaches the logger *)

Lemma guarded_returns {A} (r : py_exception + A) mk a :
  guarded r mk = Return a <-> r = inr a.
Proof.
  unfold guarded. destruct r as [e|a'].
  - destruct (is_transport_failure e); split; discriminate.
  - split; congruence.
Qed.

Lemma guarded_propagates {A} (r : py_exception + A) mk e :
  guarded r mk = Raise (Propagated e) <->
  r = inl e /\ is_transport_failure e = false.
Proof.
  unfold guarded. destruct r as [e'|a].
  - destruct (is_transport_failure e') eqn:E; split.
    + discriminate.
    + intros [H F]. injection H as ->. congruence.
    + intros H. injection H as ->. auto.
    + intros [H _]. congruence.
  - split; [discriminate|]. intros [H _]. discriminate.
Qed.

Section Logs.

Variable services : GCPRepository.
Variable w : world.

Import ServiceManagementClient.

Ltac run_logged :=
  unfold guarded, log_after; run_monad;
  match goal with
  | |- context [match ?r with inl _ => _ | inr _ => _ end] =>
      destruct r as [e|v]; simpl;
      [destruct (is_transport_failure e)|]; simpl;
      rewrite ?app_nil_r; reflexivity
  end.

Lemma get_all_apis_logged :
  logged (fst (get_all_apis services w))
  = logged w ++
    log_after (snd (get_all_apis services w))
      (fun r => LogDebug (debug_format GetAllApis) [PyList r]).
Proof.
  unfold get_all_apis, Services.list. run_logged.
Qed.

Lemma get_produced_apis_logged project_id :
  logged (fst (get_produced_apis services project_id w))
  = logged w ++
    log_after (snd (get_produced_apis services project_id w))
      (fun r => LogDebug (debug_format GetProducedApis)
                  [PyStr project_id; PyList r]).
Proof.
  unfold get_produced_apis, Services.list. run_logged.
Qed.

Lemma get_enabled_apis_logged project_id :
  logged (fst (get_enabled_apis services project_id w))
  = logged w ++
    log_after (snd (get_enabled_apis services project_id w))
      (fun r => LogDebug (debug_format GetEnabledApis)
                  [PyStr project_id; PyList r]).
Proof.
  unfold get_enabled_apis, Services.list. run_logged.
Qed.

Lemma get_api_iam_policy_logged service_name :
  logged (fst (get_api_iam_policy services service_name w))
  = logged w ++
    log_after (snd (get_api_iam_policy services service_name w))
      (fun r => LogDebug (debug_format GetApiIamPolicy)
                  [PyStr service_name; r]).
Proof.
  unfold get_api_iam_policy, Services.get_iam_policy. run_logged.
Qed.

Lemma get_full_api_configuration_logged service_name :
  logged (fst (get_full_api_configuration services service_name w))
  = logged w ++
    log_after (snd (get_full_api_configuration services service_name w))
      (fun r => LogDebug (debug_format GetFullApiConfiguration)
                  [PyStr service_name; r]).
Proof.
  unfold get_full_api_configuration. run_monad.
  rewrite get_config_run. simpl. unfold log_after.
  destruct (execute_query_response _ _ _) as [e|v]; simpl;
    [destruct (is_transport_failure e)|]; simpl;
    rewrite ?app_nil_r; reflexivity.
Qed.

End Logs.

Lemma fmap_M_logged {A} (f : A -> retval) (m : M A) (w : world)
    (debug : A -> log_record) (record : retval -> log_record) :
  (forall a, debug a = record (f a)) ->
  logged (fst (m w)) = logged w ++ log_after (snd (m w)) debug ->
  logged (fst (fmap_M f m w))
  = logged w ++ log_after (snd (fmap_M f m w)) record.
Proof.
  intros Hd H. destruct (fmap_M_run f m w) as [-> ->]. rewrite H.
  destruct (snd (m w)) as [a|[e|e]]; simpl; [now rewrite Hd | | ]; reflexivity.
Qed.

(** X1: each operation appends to the log exactly what its outcome calls
    for and leaves earlier records alone: on a result, one debug record
    with the operation's format, the identifier passed (if any) and the
    result; on a domain error, one exception record holding the very
    error that is raised; on any other exception, nothing. *)
Theorem operations_log_their_outcome
    (services : GCPRepository) (op : operation) (w : world) :
  logged (fst (run services op w))
  = logged w ++
    match snd (run services op w) with
    | Return v =>
        [LogDebug (debug_format (name_of op))
           (identifier_args op ++ [pyval_of v])]
    | Raise (ApiExecution err) => [LogException err]
    | Raise (Propagated _) => []
    end.
Proof.
  change (logged (fst (run services op w))
          = logged w ++
            log_after (snd (run services op w))
              (fun v => LogDebug (debug_format (name_of op))
                          (identifier_args op ++ [pyval_of v]))).
  destruct op as [n a]. unfold run, identifier_args. simpl.
  destruct n; simpl.
  - eapply fmap_M_logged; [|apply get_all_apis_logged]. reflexivity.
  - eapply fmap_M_logged; [|apply get_produced_apis_logged]. reflexivity.
  - eapply fmap_M_logged; [|apply get_enabled_apis_logged]. reflexivity.
  - eapply fmap_M_logged; [|apply get_api_iam_policy_logged]. reflexivity.
  - eapply fmap_M_logged; [|apply get_full_api_configuration_logged].
    reflexivity.
Qed.

(** ** Produced APIs *)

(** X2: [get_produced_apis] dispatches one list call whose only filter is
    [producerProjectId], bound to the project id exactly as passed (no
    formatting, no [consumerId]), with [max_results] 100; pages that
    arrive without failure are returned flattened in order, and a
    transport failure on any page raises the domain error labelled
    "name" and tagged with the project id. *)
Theorem get_produced_apis_behaviour
    (services : GCPRepository) (project_id : string) (w : world) :
  let kwargs : gmap string pyval :=
    {[ "producerProjectId" := PyStr project_id ]} in
  let response := list_response services kwargs (Some 100%Z) in
  calls (fst (ServiceManagementClient.get_produced_apis services project_id w))
    = calls w ++ [CallList kwargs (Some 100%Z)] /\
  kwargs !! "producerProjectId" = Some (PyStr project_id) /\
  kwargs !! "consumerId" = None /\
  (forall ps : list page,
     response = pages_of ps ->
     snd (ServiceManagementClient.get_produced_apis services project_id w)
       = Return (concat
                   (map (fun p : page => default [] (p !! "services")) ps))) /\
  (forall cause,
     pages_failure response = Some cause ->
     is_transport_failure cause = true ->
     snd (ServiceManagementClient.get_produced_apis services project_id w)
       = Raise (ApiExecution
                  (ApiExecutionError "name" cause
                     (Some ("project_id", project_id))))).
Proof.
  cbv zeta. destruct (get_produced_apis_run services w project_id) as [Hc Hs].
  cbv zeta in Hc, Hs.
  split; [exact Hc|]. split; [apply lookup_singleton_eq|].
  split; [now apply lookup_singleton_ne|]. split.
  - intros ps H. rewrite Hs, H, flatten_pages_of. reflexivity.
  - intros cause Hf Ht. apply (flatten_raises _ "services") in Hf.
    rewrite Hs, Hf. unfold guarded. now rewrite Ht.
Qed.

Lemma get_produced_apis_behaviour_witness :
  calls (fst (ServiceManagementClient.get_produced_apis
                (Services.__init__ sample) "project:p1" w0))
    = [CallList {[ "producerProjectId" := PyStr "project:p1" ]} (Some 100%Z)] /\
  snd (ServiceManagementClient.get_produced_apis
         (Services.__init__ sample) "project:p1" w0)
    = Return [PyStr "a"; PyStr "b"; PyStr "c"] /\
  snd (ServiceManagementClient.get_produced_apis
         (Services.__init__ unavailable) "p1" w0)
    = Raise (ApiExecution
               (ApiExecutionError "name" (HttpError 503 "unavailable")
                  (Some ("project_id", "p1")))).
Proof.
  split; [|split].
  - apply (proj1 (get_produced_apis_behaviour (Services.__init__ sample)
                    "project:p1" w0)).
  - destruct (get_produced_apis_behaviour (Services.__init__ sample)
                "project:p1" w0) as (_ & _ & _ & Hpages & _).
    rewrite (Hpages [ {[ "services" := [PyStr "a"; PyStr "b"] ]};
                      ∅;
                      {[ "services" := [PyStr "c"] ]} ] eq_refl).
    reflexivity.
  - destruct (get_produced_apis_behaviour (Services.__init__ unavailable)
                "p1" w0) as (_ & _ & _ & _ & Hfail).
    apply Hfail; reflexivity.
Defined.

(** ** The same resource under two spellings *)

(** X3: for an id [p] without the "project:" prefix, [get_enabled_apis]
    called with [p] and called with "project:" + [p] dispatch the same
    call, return the same items and let the same foreign exception
    through; on a transport failure both raise a domain error with the
    same label and cause, each tagged with the spelling it was given. *)
Theorem get_enabled_apis_prefix_insensitive
    (services : GCPRepository) (p : string) (w : world) :
  startswith p "project:" = false ->
  let short := ServiceManagementClient.get_enabled_apis services p w in
  let long :=
    ServiceManagementClient.get_enabled_apis services ("project:" +:+ p) w in
  calls (fst short) = calls (fst long) /\
  (forall items, snd short = Return items <-> snd long = Return items) /\
  (forall e,
     snd short = Raise (Propagated e) <-> snd long = Raise (Propagated e)) /\
  (forall cause,
     snd short
       = Raise (ApiExecution
                  (ApiExecutionError "name" cause (Some ("project_id", p))))
     <->
     snd long
       = Raise (ApiExecution
                  (ApiExecutionError "name" cause
                     (Some ("project_id", "project:" +:+ p))))).
Proof.
  intros Hp. cbv zeta.
  destruct (get_enabled_apis_run services w p) as [Hc1 Hs1].
  destruct (get_enabled_apis_run services w ("project:" +:+ p)) as [Hc2 Hs2].
  cbv zeta in Hc1, Hs1, Hc2, Hs2.
  rewrite (format_project_unprefixed p Hp) in Hc1, Hs1.
  rewrite (format_project_prefixed ("project:" +:+ p)
             (startswith_append "project:" p)) in Hc2, Hs2.
  rewrite Hc1, Hc2, Hs1, Hs2. split; [reflexivity|].
  split; [|split].
  - intros items. now rewrite !guarded_returns.
  - intros e. now rewrite !guarded_propagates.
  - intros cause. rewrite !guarded_api_execution.
    split; intros (e & He & Ht & Herr); exists e;
      (split; [exact He|]); (split; [exact Ht|]);
      injection Herr as ->; reflexivity.
Qed.

Lemma get_enabled_apis_prefix_insensitive_witness :
  startswith "p1" "project:" = false /\
  calls (fst (ServiceManagementClient.get_enabled_apis
                (Services.__init__ sample) "p1" w0))
  = calls (fst (ServiceManagementClient.get_enabled_apis
                  (Services.__init__ sample) ("project:" +:+ "p1") w0)).
Proof.
  split; [reflexivity|].
  apply (get_enabled_apis_prefix_insensitive (Services.__init__ sample)
           "p1" w0).
  reflexivity.
Defined.

(** X4: for a name [s] without the "services/" prefix,
    [get_api_iam_policy] called with [s] and called with "services/" + [s]
    dispatch the same call, return the same policy and let the same
    foreign exception through; on a transport failure both raise a domain
    error with the same label and cause, each tagged with the spelling it
    was given. *)
Theorem get_api_iam_policy_prefix_insensitive
    (services : GCPRepository) (s : string) (w : world) :
  startswith s "services/" = false ->
  let short := ServiceManagementClient.get_api_iam_policy services s w in
  let long :=
    ServiceManagementClient.get_api_iam_policy services ("services/" +:+ s) w in
  calls (fst short) = calls (fst long) /\
  (forall policy, snd short = Return policy <-> snd long = Return policy) /\
  (forall e,
     snd short = Raise (Propagated e) <-> snd long = Raise (Propagated e)) /\
  (forall cause,
     snd short
       = Raise (ApiExecution
                  (ApiExecutionError "serviceIamPolicy" cause
                     (Some ("serviceName", s))))
     <->
     snd long
       = Raise (ApiExecution
                  (ApiExecutionError "serviceIamPolicy" cause
                     (Some ("serviceName", "services/" +:+ s))))).
Proof.
  intros Hp. cbv zeta.
  destruct (get_api_iam_policy_run services w s) as [Hc1 Hs1].
  destruct (get_api_iam_policy_run services w ("services/" +:+ s))
    as [Hc2 Hs2].
  cbv zeta in Hc1, Hs1, Hc2, Hs2.
  rewrite (format_service_unprefixed s Hp) in Hc1, Hs1.
  rewrite (format_service_prefixed ("services/" +:+ s)
             (startswith_append "services/" s)) in Hc2, Hs2.
  rewrite Hc1, Hc2, Hs1, Hs2. split; [reflexivity|].
  split; [|split].
  - intros policy. now rewrite !guarded_returns.
  - intros e. now rewrite !guarded_propagates.
  - intros cause. rewrite !guarded_api_execution.
    split; intros (e & He & Ht & Herr); exists e;
      (split; [exact He|]); (split; [exact Ht|]);
      injection Herr as ->; reflexivity.
Qed.

Lemma get_api_iam_policy_prefix_insensitive_witness :
  startswith "svcA" "services/" = false /\
  calls (fst (ServiceManagementClient.get_api_iam_policy
                (Services.__init__ sample) "svcA" w0))
  = calls (fst (ServiceManagementClient.get_api_iam_policy
                  (Services.__init__ sample) ("services/" +:+ "svcA") w0)).
Proof.
  split; [reflexivity|].
  apply (get_api_iam_policy_prefix_insensitive (Services.__init__ sample)
           "svcA" w0).
  reflexivity.
Defined.

(** ** Which names are formatted alike *)

Lemma append_inj_l (pre x y : string) : pre +:+ x = pre +:+ y -> x = y.
Proof.
  induction pre as [|c pre IH]; simpl; intros H; [exact H|].
  injection H as H. exact (IH H).
Qed.

(** Adding a prefix unless it is there already maps two strings to the
    same result only if they are equal or one is the other with the
    prefix in front. *)
Lemma conditional_prefix_collision (pre x y : string) :
  let f := fun z => if negb (startswith z pre) then pre +:+ z else z in
  f x = f y <->
  x = y \/
  (x = pre +:+ y /\ startswith y pre = false) \/
  (y = pre +:+ x /\ startswith x pre = false).
Proof.
  cbv beta zeta.
  destruct (startswith x pre) eqn:Ex, (startswith y pre) eqn:Ey; simpl.
  - split; [auto|]. intros [H|[[_ H]|[_ H]]]; [exact H|discriminate..].
  - split; [auto|].
    intros [H|[[H _]|[_ H]]]; [congruence|exact H|discriminate].
  - split; [intros H; right; right; auto|].
    intros [H|[[_ H]|[H _]]]; [congruence|discriminate|now rewrite H].
  - split; [intros H; left; exact (append_inj_l _ _ _ H)|].
    intros [H|[[H _]|[H _]]]; [now rewrite H| |].
    + rewrite H, startswith_append in Ex. discriminate.
    + rewrite H, startswith_append in Ey. discriminate.
Qed.

(** X5: two project ids are formatted to the same name exactly when they
    are equal or one is the other, unprefixed, with "project:" in
    front. *)
Theorem get_formatted_project_name_collision (x y : string) :
  Services.get_formatted_project_name x = Services.get_formatted_project_name y
  <->
  x = y \/
  (x = "project:" +:+ y /\ startswith y "project:" = false) \/
  (y = "project:" +:+ x /\ startswith x "project:" = false).
Proof. exact (conditional_prefix_collision "project:" x y). Qed.

(** X6: two service names are formatted to the same name exactly when
    they are equal or one is the other, unprefixed, with "services/" in
    front. *)
Theorem get_formatted_service_name_collision (x y : string) :
  Services.get_formatted_service_name x = Services.get_formatted_service_name y
  <->
  x = y \/
  (x = "services/" +:+ y /\ startswith y "services/" = false) \/
  (y = "services/" +:+ x /\ startswith x "services/" = false).
Proof. exact (conditional_prefix_collision "services/" x y). Qed.

(** X7: an id in the 'projects/<id>' form that the docstring of
    [get_formatted_project_name] mentions is not taken as formatted: it
    comes back with "project:" in front, the 'projects/' part kept. *)
Theorem get_formatted_project_name_projects_slash (x : string) :
  startswith ("projects/" +:+ x) "project:" = false /\
  Services.get_formatted_project_name ("projects/" +:+ x)
  = "project:projects/" +:+ x.
Proof. split; reflexivity. Qed.

(** ** The repository client: rate limiting and memoisation *)

(** X8: the base repository is told to use a rate limiter exactly when
    the caller asked for one and [quota_max_calls] is an integer other
    than zero (a negative one included); every other argument reaches
    the base constructor unchanged, under API name "servicemanagement"
    and version "v1". *)
Theorem init_rate_limiter_iff
    (quota_max_calls0 : option Z) (quota_period0 : float)
    (use_rate_limiter0 cache_discovery0 : bool) (cache0 : option Cache) :
  let base :=
    ServiceManagementRepositoryClient.__init__ quota_max_calls0 quota_period0
      use_rate_limiter0 cache_discovery0 cache0 in
  (use_rate_limiter base = true <->
   use_rate_limiter0 = true /\
   exists n, quota_max_calls0 = Some n /\ n <> 0%Z) /\
  api_name base = "servicemanagement" /\
  versions base = ["v1"] /\
  quota_max_calls base = quota_max_calls0 /\
  quota_period base = quota_period0 /\
  cache_discovery base = cache_discovery0 /\
  cache base = cache0.
Proof.
  cbv zeta. split; [|repeat split].
  simpl. destruct quota_max_calls0 as [n|]; simpl.
  - destruct (Z.eqb_spec n 0) as [->|Hn]; simpl.
    + split; [discriminate|]. intros (_ & m & Hm & Hne). congruence.
    + split; [intros H; split; [exact H|now exists n]|]. intros [H _]. exact H.
  - split; [discriminate|]. intros (_ & m & Hm & _). discriminate.
Qed.

Lemma init_rate_limiter_iff_witness :
  use_rate_limiter
    (ServiceManagementRepositoryClient.__init__ (Some (-1)%Z) 100%float true
       false None) = true.
Proof.
  apply (proj1 (init_rate_limiter_iff (Some (-1)%Z) 100%float true false None)).
  split; [reflexivity|]. exists (-1)%Z. split; [reflexivity|lia].
Defined.

Lemma read_services_built (n : nat) (self : repository_client)
    (handle : GCPRepository) :
  _services self = Some handle ->
  read_services n self = (replicate n handle, self).
Proof.
  intros Hs. induction n as [|n IH]; simpl; [reflexivity|].
  unfold RepositoryClient.services. rewrite Hs, IH. reflexivity.
Qed.

(** X9: reading the [services] property of a freshly constructed client
    any number of times builds the sub-repository once, on the first
    read, and every read returns that same handle, the one
    [_ServiceManagementServicesRepository] builds from the client's
    connection; the arguments given to the base constructor are left as
    they were. *)
Theorem services_built_once
    (c : remote) (quota_max_calls0 : option Z) (quota_period0 : float)
    (use_rate_limiter0 cache_discovery0 : bool) (cache0 : option Cache)
    (n : nat) :
  let fresh :=
    RepositoryClient.construct c quota_max_calls0 quota_period0
      use_rate_limiter0 cache_discovery0 cache0 in
  constructions fresh = 0 /\
  fst (read_services n fresh) = replicate n (Services.__init__ c) /\
  constructions (snd (read_services n fresh)) = Nat.min n 1 /\
  base (snd (read_services n fresh)) = base fresh.
Proof.
  cbv zeta. split; [reflexivity|].
  destruct n as [|n]; [repeat split|].
  simpl.
  rewrite read_services_built with (handle := Services.__init__ c)
    by reflexivity.
  repeat split. simpl. lia.
Qed.

(** ** [get_config] below the client *)

(** X10: [get_config] itself translates nothing and logs nothing: it
    dispatches one call, never raises the domain error, and an exception
    of the transport, [HttpError] included, comes out as it was raised. *)
Theorem get_config_translates_nothing
    (services : GCPRepository) (resource : string) (config_id view : pyval)
    (verb : string) (w : world) :
  let result := Services.get_config services resource config_id view verb w in
  logged (fst result) = logged w /\
  (forall err, snd result <> Raise (ApiExecution err)) /\
  exists arguments : gmap string pyval,
    calls (fst result) = calls w ++ [CallExecuteQuery verb arguments] /\
    (forall e,
       execute_query_response services verb arguments = inl e <->
       snd result = Raise (Propagated e)) /\
    (forall document,
       execute_query_response services verb arguments = inr document <->
       snd result = Return document).
Proof.
  cbv zeta. rewrite get_config_run. cbv zeta. simpl.
  split; [reflexivity|]. split.
  - intros err. destruct (execute_query_response _ _ _); discriminate.
  - eexists. split; [reflexivity|].
    split; intros x; destruct (execute_query_response _ _ _);
      split; congruence.
Qed.


Example full_configuration_translates_http_error :
  snd (ServiceManagementClient.get_full_api_configuration
         (Services.__init__ (failing (HttpError 404 "not found"))) "svcA" w0)
  = Raise (ApiExecution
             (ApiExecutionError "serviceConfig" (HttpError 404 "not found")
                (Some ("serviceName", "svcA")))).
Proof. reflexivity. Qed.

Example full_configuration_translates_httplib2_error :
  snd (ServiceManagementClient.get_full_api_configuration
         (Services.__init__ (failing (HttpLib2Error "timed out"))) "svcA" w0)
  = Raise (ApiExecution
             (ApiExecutionError "serviceConfig" (HttpLib2Error "timed out")
                (Some ("serviceName", "svcA")))).
Proof. reflexivity. Qed.

Example full_configuration_passes_other_exception :
  snd (ServiceManagementClient.get_full_api_configuration
         (Services.__init__ (failing (OtherException "KeyError" "name")))
         "svcA" w0)
  = Raise (Propagated (OtherException "KeyError" "name")).
Proof. reflexivity. Qed.
